(** * wikipedia-agent: the HTTP handlers of [main.go]

    A shallow embedding of [main.go]: the three handlers registered by
    [main] ([/health], [/version], [/lookup]), the summary fetcher
    [fetchWikipediaSummary], and as much of the Go standard library
    ([net/http], [encoding/json], [fmt], [io], [unicode/utf8]) as the
    handlers go through.

    Go strings are byte sequences: they are Rocq [string]s, one [ascii]
    per byte.  The response writer is passed and returned explicitly; the
    provider ([go-wiki]) and the log of calls made are threaded through a
    small state monad. *)

From Stdlib Require Import ZArith String Ascii List Lia.
From stdpp Require Import base option list strings gmap sorting.

Local Open Scope string_scope.
Local Open Scope Z_scope.

(** ** Bytes and string literals *)

Definition byte_val (b : ascii) : Z := Z.of_N (N_of_ascii b).

(** The double quote, the line feed and the backslash. *)
Definition dquote : ascii := "034"%char.
Definition LF : ascii := "010"%char.
Definition backslash : ascii := "092"%char.

(** [contains s sub]: [sub] occurs in [s] (Go's [strings.Contains]). *)
Definition contains (s sub : string) : Prop :=
  ∃ pre post : string, s = pre +:+ sub +:+ post.

(** ** unicode/utf8 *)

Module utf8.

Definition RuneError : Z := 0xFFFD.
Definition RuneSelf : Z := 0x80.

(** The [first] table of the decoder for a non-ASCII lead byte: the
    length of the sequence and the range accepted for its second
    byte; [None] is the table's [xx] (an invalid lead byte). *)
Definition first (b0 : Z) : option (nat * Z * Z) :=
  if b0 <? 0xC2 then None
  else if b0 <=? 0xDF then Some (2%nat, 0x80, 0xBF)
  else if b0 =? 0xE0 then Some (3%nat, 0xA0, 0xBF)
  else if b0 <=? 0xEC then Some (3%nat, 0x80, 0xBF)
  else if b0 =? 0xED then Some (3%nat, 0x80, 0x9F)
  else if b0 <=? 0xEF then Some (3%nat, 0x80, 0xBF)
  else if b0 =? 0xF0 then Some (4%nat, 0x90, 0xBF)
  else if b0 <=? 0xF3 then Some (4%nat, 0x80, 0xBF)
  else if b0 =? 0xF4 then Some (4%nat, 0x80, 0x8F)
  else None.

(** A continuation byte ([locb] to [hicb]). *)
Definition cont (b : Z) : bool := (0x80 <=? b) && (b <=? 0xBF).

Definition maskx (b : Z) : Z := Z.land b 0x3F.

(** [DecodeRuneInString s]: the first rune of [s] and its width in
    bytes; [(RuneError, 0)] on the empty string and [(RuneError, 1)]
    on an encoding that is not valid. *)
Definition DecodeRuneInString (s : string) : Z * nat :=
  match s with
  | EmptyString => (RuneError, 0%nat)
  | String c0 s' =>
    let b0 := byte_val c0 in
    if b0 <? RuneSelf then (b0, 1%nat)
    else match first b0 with
    | None => (RuneError, 1%nat)
    | Some (sz, lo, hi) =>
      match s' with
      | EmptyString => (RuneError, 1%nat)
      | String c1 s'' =>
        let b1 := byte_val c1 in
        if (b1 <? lo) || (hi <? b1) then (RuneError, 1%nat)
        else if (sz <=? 2)%nat
        then (Z.lor (Z.shiftl (Z.land b0 0x1F) 6) (maskx b1), 2%nat)
        else match s'' with
        | EmptyString => (RuneError, 1%nat)
        | String c2 s''' =>
          let b2 := byte_val c2 in
          if negb (cont b2) then (RuneError, 1%nat)
          else if (sz <=? 3)%nat
          then (Z.lor (Z.lor (Z.shiftl (Z.land b0 0x0F) 12)
                             (Z.shiftl (maskx b1) 6)) (maskx b2), 3%nat)
          else match s''' with
          | EmptyString => (RuneError, 1%nat)
          | String c3 _ =>
            let b3 := byte_val c3 in
            if negb (cont b3) then (RuneError, 1%nat)
            else (Z.lor (Z.lor (Z.lor (Z.shiftl (Z.land b0 0x07) 18)
                                      (Z.shiftl (maskx b1) 12))
                               (Z.shiftl (maskx b2) 6)) (maskx b3), 4%nat)
          end
        end
      end
    end
  end.

End utf8.


(** ** The [error] interface *)

(** A Go [error] is a value with an [Error() string] method; a variable
    of type [error] is [nil] or holds one: [option E]. *)
Class GoError (E : Type) := Error : E → string.

(** ** io *)

Module io.

(** An [io.Reader] by what its successive [Read]s deliver: chunks of
    bytes, ended by [io.EOF] or by an error. *)
Inductive Reader (E : Type) : Type :=
| EOF
| Fail (err : E)
| Data (p : string) (rest : Reader E).
Arguments EOF {E}.
Arguments Fail {E} err.
Arguments Data {E} p rest.

(** [io.ReadAll]: reads until [io.EOF] or an error and returns the
    bytes read with the error ([nil] at [io.EOF]). *)
Fixpoint ReadAll {E : Type} (r : Reader E) : string * option E :=
  match r with
  | EOF => (EmptyString, None)
  | Fail err => (EmptyString, Some err)
  | Data p rest => let '(b, err) := ReadAll rest in (p +:+ b, err)
  end.

(** What a reader holds, apart from how it is read: the chunks it
    delivers, in order, and how it ends ([None] at [io.EOF]). *)
Fixpoint chunks {E : Type} (r : Reader E) : list string :=
  match r with
  | EOF => []
  | Fail _ => []
  | Data p rest => p :: chunks rest
  end.

Fixpoint ending {E : Type} (r : Reader E) : option E :=
  match r with
  | EOF => None
  | Fail err => Some err
  | Data _ rest => ending rest
  end.

End io.


(** ** net/http: what a handler sees *)

Module http.

Definition MethodPost : string := "POST".

Definition StatusOK : Z := 200.
Definition StatusBadRequest : Z := 400.
Definition StatusNotFound : Z := 404.
Definition StatusMethodNotAllowed : Z := 405.
Definition StatusInternalServerError : Z := 500.

(** A [ResponseWriter], by the calls a handler has made on it:
    [header] is the map [w.Header()] returns; [committed] is [None]
    until the header is written, then the status code and the headers
    as they were at that moment; [writes] are the byte slices passed to
    [Write], in order, one entry per call.  What the server adds when
    it frames the response onto the connection (Date, Content-Length, a
    sniffed Content-Type, no body for HEAD) is below this interface. *)
Record ResponseWriter : Type := {
  header : gmap string (list string);
  committed : option (Z * gmap string (list string));
  writes : list string
}.

(** The writer the server hands to a handler. *)
Definition newResponseWriter : ResponseWriter :=
  {| header := ∅; committed := None; writes := [] |}.

(** [w.Header().Set(key, value)] and [w.Header().Del(key)], for a key
    in canonical form. *)
Definition Header_Set (key value : string) (w : ResponseWriter) : ResponseWriter :=
  {| header := <[key := [value]]> (header w);
     committed := committed w; writes := writes w |}.

Definition Header_Del (key : string) (w : ResponseWriter) : ResponseWriter :=
  {| header := delete key (header w);
     committed := committed w; writes := writes w |}.

(** [w.WriteHeader(code)] for a final status code: the first call
    commits the code and the headers, a later one changes nothing. *)
Definition WriteHeader (code : Z) (w : ResponseWriter) : ResponseWriter :=
  match committed w with
  | Some _ => w
  | None => {| header := header w;
               committed := Some (code, header w); writes := writes w |}
  end.

(** [w.Write(p)]: writes the header with status 200 when it is not
    written yet, then the bytes. *)
Definition Write (p : string) (w : ResponseWriter) : ResponseWriter :=
  let w' := WriteHeader StatusOK w in
  {| header := header w'; committed := committed w'; writes := writes w' ++ [p] |}.

(** [http.Error(w, error, code)]; its last statement,
    [fmt.Fprintln(w, error)], is one [Write] of the message and a
    newline. *)
Definition Error (error : string) (code : Z) (w : ResponseWriter) : ResponseWriter :=
  let w := Header_Del "Content-Length" w in
  let w := Header_Set "Content-Type" "text/plain; charset=utf-8" w in
  let w := Header_Set "X-Content-Type-Options" "nosniff" w in
  let w := WriteHeader code w in
  Write (error +:+ String LF EmptyString) w.

(** The response as the handler leaves it: the committed status (200
    when the handler wrote nothing), the headers committed with it, and
    the bytes written. *)
Record Response : Type := {
  StatusCode : Z;
  ResponseHeader : gmap string (list string);
  ResponseBody : string
}.

Definition finish (w : ResponseWriter) : Response :=
  let w' := WriteHeader StatusOK w in
  {| StatusCode := from_option fst StatusOK (committed w');
     ResponseHeader := from_option snd ∅ (committed w');
     ResponseBody := foldr String.append EmptyString (writes w') |}.

(** A request: its method, the path of its URL, and its body. *)
Record Request (E : Type) : Type := {
  Method : string;
  URLPath : string;
  Body : io.Reader E
}.
Arguments Method {E} r.
Arguments URLPath {E} r.
Arguments Body {E} r.

End http.

(** ** encoding/json: strings and [map[string]string] *)

Module json.

Definition hex : string := "0123456789abcdef".

Definition hexDigit (n : Z) : string :=
  match String.get (Z.to_nat n) hex with
  | Some c => String c EmptyString
  | None => EmptyString
  end.

(** [htmlSafeSet]: the ASCII bytes copied as they are when HTML
    escaping is on (the encoder's default): everything from the space
    up, except the double quote, the backslash, and [&], [<], [>]. *)
Definition htmlSafeSet (b : Z) : bool :=
  (0x20 <=? b) && (b <? 0x80)
  && negb ((b =? 0x22) || (b =? 0x5C) || (b =? 0x26) || (b =? 0x3C) || (b =? 0x3E)).

(** The escape written for an ASCII byte outside [htmlSafeSet]. *)
Definition escapeByte (c : ascii) : string :=
  let b := byte_val c in
  if (b =? 0x5C) || (b =? 0x22) then String backslash (String c EmptyString)
  else if b =? 0x08 then String backslash "b"
  else if b =? 0x0C then String backslash "f"
  else if b =? 0x0A then String backslash "n"
  else if b =? 0x0D then String backslash "r"
  else if b =? 0x09 then String backslash "t"
  else String backslash "u00" +:+ hexDigit (Z.shiftr b 4) +:+ hexDigit (Z.land b 0xF).

(** The loop of [appendString], between the two quotes.  [skip] counts
    the bytes of [src] that belong to a rune already dealt with (the
    loop's [i += size]). *)
Fixpoint appendString_loop (src : string) (skip : nat) : string :=
  match src with
  | EmptyString => EmptyString
  | String c rest =>
    match skip with
    | S k => appendString_loop rest k
    | O =>
      let b := byte_val c in
      if b <? utf8.RuneSelf then
        (if htmlSafeSet b then String c EmptyString else escapeByte c)
          +:+ appendString_loop rest 0
      else
        let '(r, size) := utf8.DecodeRuneInString src in
        if (r =? utf8.RuneError) && (size =? 1)%nat then
          String backslash "ufffd" +:+ appendString_loop rest 0
        else if (r =? 0x2028) || (r =? 0x2029) then
          String backslash "u202" +:+ hexDigit (Z.land r 0xF)
            +:+ appendString_loop rest (size - 1)
        else
          String.substring 0 size src +:+ appendString_loop rest (size - 1)
    end
  end.

(** [appendString] with [escapeHTML] on: a JSON string literal. *)
Definition appendString (src : string) : string :=
  String dquote (appendString_loop src 0) +:+ String dquote EmptyString.

(** One [key:value] member of an object. *)
Definition member (kv : string * string) : string :=
  appendString kv.1 +:+ ":" +:+ appendString kv.2.

Fixpoint joinMembers (kvs : list (string * string)) : string :=
  match kvs with
  | [] => EmptyString
  | [kv] => member kv
  | kv :: rest => member kv +:+ "," +:+ joinMembers rest
  end.

(** The entries of a Go map in the order the encoder writes them:
    sorted by key, byte-wise. *)
Definition sortedEntries (m : gmap string string) : list (string * string) :=
  merge_sort (λ kv1 kv2 : string * string, String.le kv1.1 kv2.1) (map_to_list m).

(** [Marshal] of a non-nil [map[string]string]. *)
Definition Marshal (m : gmap string string) : string :=
  "{" +:+ joinMembers (sortedEntries m) +:+ "}".

(** [json.NewEncoder(w).Encode(m)] for a [map[string]string]: the JSON
    text followed by a newline, in one [Write]. *)
Definition Encode (m : gmap string string) (w : http.ResponseWriter)
  : http.ResponseWriter :=
  http.Write (Marshal m +:+ String LF EmptyString) w.

End json.

(** ** fmt *)

Module fmt.

(** [fmt.Sprintf("lookup error: %v", err)] for a non-nil [err]: the
    verb [%v] prints an [error] by its [Error()] text. *)
Definition Sprintf_lookup_error `{GoError E} (err : E) : string :=
  "lookup error: " +:+ Error err.

(** [fmt.Sprintf("Wikipedia Agent v%s listening on :8080\n", v)]. *)
Definition Sprintf_banner (v : string) : string :=
  "Wikipedia Agent v" +:+ v +:+ " listening on :8080" +:+ String LF EmptyString.

(** [fmt.Fprint(w, s)] for one string operand: the operand is formatted
    into a buffer, as it is, and the buffer is written in one [Write]. *)
Definition Fprint (s : string) (w : http.ResponseWriter) : http.ResponseWriter :=
  http.Write s w.

End fmt.

(** The value [appVersion] is declared with. *)
Definition defaultVersion : string := "dev".

(** ** The provider and the state a handler runs in *)

(** The two operations of [go-wiki] used here, as the Go signatures give
    them: each returns a value together with an [error], and depends on
    (and may change) the world outside the process. *)
Record Wiki (World Page E : Type) : Type := {
  GetPage : string → Z → bool → bool → World → (Page * option E) * World;
  GetSummary : Page → World → (string * option E) * World
}.
Arguments GetPage {World Page E} w title pageid suggest redirect world.
Arguments GetSummary {World Page E} w page world.

(** The calls a handler makes outside itself, as they are logged. *)
Inductive Call (Page : Type) : Type :=
| CallReadAll
| CallGetPage (title : string) (pageid : Z) (suggest redirect : bool)
| CallGetSummary (page : Page).
Arguments CallReadAll {Page}.
Arguments CallGetPage {Page} title pageid suggest redirect.
Arguments CallGetSummary {Page} page.

Record State (World Page : Type) : Type := {
  world : World;
  calls : list (Call Page)
}.
Arguments world {World Page} s.
Arguments calls {World Page} s.

(** Computations that thread the state. *)
Definition M (World Page A : Type) : Type :=
  State World Page → A * State World Page.

Global Instance M_ret {World Page} : MRet (M World Page) :=
  λ A (a : A) st, (a, st).

Global Instance M_bind {World Page} : MBind (M World Page) :=
  λ A B (f : A → M World Page B) (m : M World Page A) st,
    let '(a, st') := m st in f a st'.

Definition isGetPage {Page} (c : Call Page) : bool :=
  match c with CallGetPage _ _ _ _ => true | _ => false end.

Definition isGetSummary {Page} (c : Call Page) : bool :=
  match c with CallGetSummary _ => true | _ => false end.

Definition isReadAll {Page} (c : Call Page) : bool :=
  match c with CallReadAll => true | _ => false end.

(** How often a kind of call occurs in a log. *)
Fixpoint count {Page} (kind : Call Page → bool) (log : list (Call Page)) : nat :=
  match log with
  | [] => 0
  | c :: log' => ((if kind c then 1 else 0) + count kind log')%nat
  end.

Section Agent.

Context {World Page E : Type} `{!GoError E}.

(** The provider the process talks to. *)
Variable wiki : Wiki World Page E.

(** The package variable [appVersion]: [defaultVersion], unless the
    linker was told another value ([-X main.appVersion=...]). *)
Variable appVersion : string.

(** What the default mux answers by itself to a request whose path is
    none of the registered patterns, given the method and the path:
    [404 page not found] on a clean path, a redirect to the cleaned path
    on another, [400] on the request-URI [*].  No handler of this program
    runs for such a request and its body is not looked at; the answer is
    taken as given. *)
Variable muxAnswer : string → string → http.Response.

Abbreviation M := (M World Page).

(** The state after one more call [c], the world being [wd] now. *)
Definition called (c : Call Page) (wd : World) (st : State World Page)
  : State World Page :=
  {| world := wd; calls := calls st ++ [c] |}.

(** [wiki.GetPage(title, pageid, suggest, redirect)]. *)
Definition wiki_GetPage (title : string) (pageid : Z) (suggest redirect : bool)
  : M (Page * option E) :=
  λ st, let '(res, wd) := GetPage wiki title pageid suggest redirect (world st) in
        (res, called (CallGetPage title pageid suggest redirect) wd st).

(** [page.GetSummary()]. *)
Definition page_GetSummary (page : Page) : M (string * option E) :=
  λ st, let '(res, wd) := GetSummary wiki page (world st) in
        (res, called (CallGetSummary page) wd st).

(** [io.ReadAll(r)] on a request body. *)
Definition io_ReadAll (r : io.Reader E) : M (string * option E) :=
  λ st, (io.ReadAll r, called CallReadAll (world st) st).

(** *** [fetchWikipediaSummary] *)

Definition fetchWikipediaSummary (topic : string) : M (string * option E) :=
  '(page, err) ← wiki_GetPage topic (-1) false false;
  match err with
  | Some e => mret (EmptyString, Some e)
  | None =>
    '(summary, err) ← page_GetSummary page;
    match err with
    | Some e => mret (EmptyString, Some e)
    | None => mret (summary, None)
    end
  end.

(** *** [lookupHandler] *)

Definition lookupHandler (w : http.ResponseWriter) (r : http.Request E)
  : M http.ResponseWriter :=
  if negb (bool_decide (http.Method r = http.MethodPost)) then
    mret (http.Error "POST required" http.StatusMethodNotAllowed w)
  else
    '(topicBytes, err) ← io_ReadAll (http.Body r);
    match err with
    | Some _ => mret (http.Error "cannot read body" http.StatusBadRequest w)
    | None =>
      let topic := topicBytes in
      '(summary, err) ← fetchWikipediaSummary topic;
      match err with
      | Some e =>
        mret (http.Error (fmt.Sprintf_lookup_error e)
                          http.StatusInternalServerError w)
      | None => mret (fmt.Fprint summary w)
      end
    end.

(** *** The two handlers [main] registers inline *)

Definition healthHandler (w : http.ResponseWriter) (r : http.Request E)
  : M http.ResponseWriter :=
  let w := http.Header_Set "Content-Type" "application/json" w in
  mret (json.Encode {[ "status" := "ok" ]} w).

Definition versionHandler (w : http.ResponseWriter) (r : http.Request E)
  : M http.ResponseWriter :=
  let w := http.Header_Set "Content-Type" "application/json" w in
  let versionInfo : gmap string string :=
    <["name" := "wikipedia-agent"]> (<["version" := appVersion]> ∅) in
  mret (json.Encode versionInfo w).

(** *** [main] *)

Definition Handler : Type :=
  http.ResponseWriter → http.Request E → M http.ResponseWriter.

(** What [main] does with the process it runs in: the routes it
    registers, the line it prints, and the address it listens on. *)
Record Startup : Type := {
  routes : list (string * Handler);
  stdout : string;
  listenAddr : string
}.

(** [main], given the command line and the environment of the process
    ([os.Args], [os.Environ()]); it reads neither. *)
Definition main (args : list string) (environ : list (string * string)) : Startup :=
  {| routes := [("/health", healthHandler);
                ("/version", versionHandler);
                ("/lookup", lookupHandler)];
     stdout := fmt.Sprintf_banner appVersion;
     listenAddr := ":8080" |}.

(** The pattern of the default mux that matches a path: the patterns
    registered have no method, no host, no wildcard and no trailing
    slash, so each matches the requests to its own path, whatever their
    method, and no other. *)
Fixpoint findHandler (rs : list (string * Handler)) (path : string) : option Handler :=
  match rs with
  | [] => None
  | (pattern, h) :: rs' =>
    if bool_decide (pattern = path) then Some h else findHandler rs' path
  end.

(** One request served by the running process: the handler whose
    pattern matches runs on a fresh writer, and the response is what it
    left there; when no pattern matches, the mux answers by itself. *)
Definition serve (args : list string) (environ : list (string * string))
  (r : http.Request E) : M http.Response :=
  match findHandler (routes (main args environ)) (http.URLPath r) with
  | Some h => w ← h http.newResponseWriter r; mret (http.finish w)
  | None => mret (muxAnswer (http.Method r) (http.URLPath r))
  end.

End Agent.

(** ** A fake provider

    Two pages and three ways to fail, for the examples below: the world
    is the number of requests sent to the provider so far. *)

Module Fixture.

Inductive page : Type := GeneralRelativity | Mercury.

Inductive err : Type :=
| PageNotFound (title : string)
| Disambiguation
| Unreachable.

Global Instance err_GoError : GoError err := λ e,
  match e with
  | PageNotFound title => "page not found: " +:+ title
  | Disambiguation => "disambiguation page"
  | Unreachable => "dial tcp: i/o timeout"
  end.

Definition summaryGR : string :=
  "General relativity is the geometric theory of gravitation.".

Definition wiki : Wiki nat page err := {|
  GetPage := λ title pageid suggest redirect n,
    (if bool_decide (title = "General relativity") then (GeneralRelativity, None)
     else if bool_decide (title = "Mercury") then (Mercury, None)
     else (GeneralRelativity, Some (PageNotFound title)), S n);
  GetSummary := λ p n,
    (match p with
     | GeneralRelativity => (summaryGR, None)
     | Mercury => ("Mercury may refer to:", Some Disambiguation)
     end, S n)
|}.

Definition start : State nat page := {| world := 0%nat; calls := [] |}.

Definition request (method path body : string) : http.Request err :=
  {| http.Method := method; http.URLPath := path;
     http.Body := io.Data body io.EOF |}.

(** The answer of the mux to the requests of the examples, whose paths
    are clean: [http.NotFound]. *)
Definition muxAnswer (method path : string) : http.Response :=
  http.finish (http.Error "404 page not found" http.StatusNotFound
                          http.newResponseWriter).

Definition run (method path body : string) :=
  serve wiki defaultVersion muxAnswer [] [] (request method path body) start.

(** A state later in the life of the process. *)
Definition later : State nat page :=
  {| world := 7%nat; calls := [CallReadAll; CallGetPage "Mercury" (-1) false false] |}.

(** The state once the body of a request has been read from [start]. *)
Definition afterRead : State nat page :=
  {| world := 0%nat; calls := [CallReadAll] |}.

(** A request whose body breaks off after some bytes. *)
Definition truncated : http.Request err :=
  {| http.Method := "POST"; http.URLPath := "/lookup";
     http.Body := io.Data "General rel" (io.Fail Unreachable) |}.

End Fixture.

(** The headers [http.Error] leaves on a fresh writer. *)
Definition errorHeader : gmap string (list string) :=
  <["X-Content-Type-Options" := ["nosniff"]]>
    (<["Content-Type" := ["text/plain; charset=utf-8"]]> (delete "Content-Length" ∅)).

(** The provider as a fixed function: what each operation returns is
    determined by its arguments, whatever the world is. *)
Definition fixedProvider {World Page E} (wiki : Wiki World Page E) : Prop :=
  ∃ (pageOf : string → Z → bool → bool → Page * option E)
    (summaryOf : Page → string * option E),
    (∀ title pageid suggest redirect wd,
        (GetPage wiki title pageid suggest redirect wd).1
        = pageOf title pageid suggest redirect)
    ∧ (∀ p wd, (GetSummary wiki p wd).1 = summaryOf p).

(** A string between double quotes, and the two JSON texts the
    documentation shows for [/health] and [/version]. *)
Definition quoted (s : string) : string :=
  String dquote s +:+ String dquote EmptyString.

Definition healthJSON : string :=
  "{" +:+ quoted "status" +:+ ":" +:+ quoted "ok" +:+ "}".

Definition nameField : string :=
  quoted "name" +:+ ":" +:+ quoted "wikipedia-agent".

Definition versionJSON (v : string) : string :=
  "{" +:+ nameField +:+ "," +:+ quoted "version" +:+ ":" +:+ quoted v +:+ "}".

(** The flags the README documents, on a command line. *)
Definition documentedFlags : list string :=
  ["wikipedia-agent"; "-listen=127.0.0.1"; "-port=9090"; "-lang=de"].

(** [allBytes P s]: every byte of [s] passes the test [P]. *)
Fixpoint allBytes (P : Z → bool) (s : string) : bool :=
  match s with
  | EmptyString => true
  | String c s' => P (byte_val c) && allBytes P s'
  end.

(** A byte that is no control character and none of [&], [<], [>]. *)
Definition plainByte (b : Z) : bool :=
  (0x20 <=? b) && negb ((b =? 0x26) || (b =? 0x3C) || (b =? 0x3E)).

(** The characters of a JSON string, between its quotes, as the JSON
    grammar has them (RFC 8259, section 7): any byte from [0x20] up
    other than the double quote and the backslash, or a backslash
    followed by a double quote, a backslash, or one of [/], [b], [f],
    [n], [r], [t], or by [u] and four hexadecimal digits. *)
Definition isHexDigit (b : Z) : bool :=
  ((0x30 <=? b) && (b <=? 0x39)) || ((0x41 <=? b) && (b <=? 0x46))
  || ((0x61 <=? b) && (b <=? 0x66)).

Definition isEscapeLetter (b : Z) : bool :=
  (b =? 0x22) || (b =? 0x5C) || (b =? 0x2F) || (b =? 0x62) || (b =? 0x66)
  || (b =? 0x6E) || (b =? 0x72) || (b =? 0x74).

Fixpoint jsonStringChars (s : string) : bool :=
  match s with
  | EmptyString => true
  | String c s1 =>
    if byte_val c =? 0x5C then
      match s1 with
      | EmptyString => false
      | String e s2 =>
        if isEscapeLetter (byte_val e) then jsonStringChars s2
        else if byte_val e =? 0x75 then
          match s2 with
          | String h1 (String h2 (String h3 (String h4 s6))) =>
            isHexDigit (byte_val h1) && isHexDigit (byte_val h2)
            && isHexDigit (byte_val h3) && isHexDigit (byte_val h4)
            && jsonStringChars s6
          | _ => false
          end
        else false
      end
    else (0x20 <=? byte_val c) && negb (byte_val c =? 0x22) && jsonStringChars s1
  end.

(** A piece of text the grammar reads as whole characters: in front of
    any text, it leaves that text to be read. *)
Definition jsonToken (t : string) : Prop :=
  ∀ rest : string, jsonStringChars (t +:+ rest) = jsonStringChars rest.

(** The bytes of a request body: all its chunks, one after the other. *)
Definition bodyBytes {E : Type} (r : http.Request E) : string :=
  foldr String.append EmptyString (io.chunks (http.Body r)).

(** The calls of a lookup that goes all the way, in the order made. *)
Definition lookupCalls {Page : Type} (topic : string) (p : Page) : list (Call Page) :=
  [CallReadAll; CallGetPage topic (-1) false false; CallGetSummary p].

(** More requests for the fake provider. *)
Module Cases.

(** The same topic delivered by the connection in two reads. *)
Definition chunked : http.Request Fixture.err :=
  {| http.Method := "POST"; http.URLPath := "/lookup";
     http.Body := io.Data "General " (io.Data "relativity" io.EOF) |}.

(** A writer on which something was written before the handler runs. *)
Definition used : http.ResponseWriter :=
  http.Write "early" http.newResponseWriter.

(** A topic with blanks around it, delivered in three reads, one of
    them empty. *)
Definition padded : http.Request Fixture.err :=
  {| http.Method := "POST"; http.URLPath := "/lookup";
     http.Body := io.Data "  General " (io.Data EmptyString
                    (io.Data ("relativity " +:+ String LF EmptyString) io.EOF)) |}.

(** A request with no body at all. *)
Definition bodiless : http.Request Fixture.err :=
  {| http.Method := "POST"; http.URLPath := "/lookup"; http.Body := io.EOF |}.

End Cases.

(** * Properties *)

(** ** Strings *)

Lemma append_nil_r (s : string) : s +:+ EmptyString = s.
Proof.
  induction s as [|c s IH]; [done|].
  change (String c (s +:+ EmptyString) = String c s). by rewrite IH.
Qed.

Lemma append_assoc (s1 s2 s3 : string) : (s1 +:+ s2) +:+ s3 = s1 +:+ (s2 +:+ s3).
Proof.
  induction s1 as [|c s1 IH]; [done|].
  change (String c ((s1 +:+ s2) +:+ s3) = String c (s1 +:+ (s2 +:+ s3))).
  by rewrite IH.
Qed.

Lemma contains_prefix (s post : string) : contains (s +:+ post) s.
Proof. exists EmptyString, post. done. Qed.

(** ** The response writer *)

Lemma finish_Write_fresh (p : string) :
  http.finish (http.Write p http.newResponseWriter)
  = {| http.StatusCode := 200; http.ResponseHeader := ∅; http.ResponseBody := p |}.
Proof. unfold http.finish; cbn. by rewrite append_nil_r. Qed.

Lemma finish_Error_fresh (msg : string) (code : Z) :
  http.finish (http.Error msg code http.newResponseWriter)
  = {| http.StatusCode := code; http.ResponseHeader := errorHeader;
       http.ResponseBody := msg +:+ String LF EmptyString |}.
Proof. unfold http.finish; cbn. by rewrite append_nil_r. Qed.

Lemma writes_Error_fresh (msg : string) (code : Z) :
  http.writes (http.Error msg code http.newResponseWriter)
  = [msg +:+ String LF EmptyString].
Proof. done. Qed.

Section AgentFacts.

Context {World Page E : Type} `{!GoError E}.
Variable wiki : Wiki World Page E.
Variable appVersion : string.
Variable muxAnswer : string → string → http.Response.

Implicit Types (st : State World Page) (r : http.Request E) (topic : string).

(** Unfolds the binds of the state monad in the goal. *)
Ltac run := unfold mbind, M_bind, mret, M_ret in *; cbn beta iota in *.

(** *** The fetcher, by cases on what the provider answers *)

Lemma fetch_page_error topic st p e wd :
  GetPage wiki topic (-1) false false (world st) = ((p, Some e), wd) →
  fetchWikipediaSummary wiki topic st
  = ((EmptyString, Some e), called (CallGetPage topic (-1) false false) wd st).
Proof.
  intros HP. unfold fetchWikipediaSummary, wiki_GetPage. run. by rewrite HP.
Qed.

Lemma fetch_page_ok topic st p wd :
  GetPage wiki topic (-1) false false (world st) = ((p, None), wd) →
  fetchWikipediaSummary wiki topic st
  = (let '((s, err), wd') := GetSummary wiki p wd in
     let st' := called (CallGetSummary p) wd'
                  (called (CallGetPage topic (-1) false false) wd st) in
     match err with
     | Some e => ((EmptyString, Some e), st')
     | None => ((s, None), st')
     end).
Proof.
  intros HP. unfold fetchWikipediaSummary, wiki_GetPage, page_GetSummary. run.
  rewrite HP. cbn.
  destruct (GetSummary wiki p wd) as [[s [e|]] wd']; done.
Qed.

(** The calls one run of the fetcher adds to the log. *)
Lemma fetch_calls topic st :
  let '((p, perr), wd) := GetPage wiki topic (-1) false false (world st) in
  calls (fetchWikipediaSummary wiki topic st).2
  = (calls st ++ CallGetPage topic (-1) false false
                 :: match perr with Some _ => [] | None => [CallGetSummary p] end)%list.
Proof.
  destruct (GetPage wiki topic (-1) false false (world st)) as [[p [e|]] wd] eqn:HP.
  - by rewrite (fetch_page_error _ _ _ _ _ HP).
  - rewrite (fetch_page_ok _ _ _ _ HP).
    destruct (GetSummary wiki p wd) as [[s [e|]] wd']; cbn;
      by rewrite <- app_assoc.
Qed.

(** *** The lookup handler, by cases *)

Lemma lookup_not_POST r st w :
  http.Method r ≠ http.MethodPost →
  lookupHandler wiki w r st
  = (http.Error "POST required" http.StatusMethodNotAllowed w, st).
Proof.
  intros Hm. unfold lookupHandler.
  rewrite bool_decide_eq_false_2 by done. done.
Qed.

Lemma lookup_read_error r st w b e :
  http.Method r = http.MethodPost →
  io.ReadAll (http.Body r) = (b, Some e) →
  lookupHandler wiki w r st
  = (http.Error "cannot read body" http.StatusBadRequest w,
     called CallReadAll (world st) st).
Proof.
  intros Hm Hb. unfold lookupHandler, io_ReadAll.
  rewrite bool_decide_eq_true_2 by done. run. by rewrite Hb.
Qed.

Lemma lookup_read_ok r st w b :
  http.Method r = http.MethodPost →
  io.ReadAll (http.Body r) = (b, None) →
  lookupHandler wiki w r st
  = (let '((summary, err), st') :=
       fetchWikipediaSummary wiki b (called CallReadAll (world st) st) in
     match err with
     | Some e => (http.Error (fmt.Sprintf_lookup_error e)
                              http.StatusInternalServerError w, st')
     | None => (fmt.Fprint summary w, st')
     end).
Proof.
  intros Hm Hb. unfold lookupHandler, io_ReadAll.
  rewrite bool_decide_eq_true_2 by done. run. rewrite Hb. cbn.
  destruct (fetchWikipediaSummary _ _ _) as [[s [e|]] st']; done.
Qed.

(** *** Dispatch *)

Lemma serve_lookup args environ r st :
  http.URLPath r = "/lookup" →
  serve wiki appVersion muxAnswer args environ r st
  = (let '(w, st') := lookupHandler wiki http.newResponseWriter r st in
     (http.finish w, st')).
Proof. intros Hp. unfold serve. rewrite Hp. done. Qed.

Lemma serve_health args environ r st :
  http.URLPath r = "/health" →
  serve wiki appVersion muxAnswer args environ r st
  = (http.finish (healthHandler http.newResponseWriter r st).1, st).
Proof. intros Hp. unfold serve. rewrite Hp. done. Qed.

Lemma serve_version args environ r st :
  http.URLPath r = "/version" →
  serve wiki appVersion muxAnswer args environ r st
  = (http.finish (versionHandler appVersion http.newResponseWriter r st).1, st).
Proof. intros Hp. unfold serve. rewrite Hp. done. Qed.

(** *** The summary fetcher *)

(** C10: for every topic, [fetchWikipediaSummary] returns a summary
    with a nil error, or the empty string with a non-nil error;
    [GetSummary] is called only on the page of a [GetPage] that
    returned no error, and each of the two provider operations is
    called at most once (here: [GetPage] exactly once). *)
Theorem fetch_result_and_calls topic st :
  let res := (fetchWikipediaSummary wiki topic st).1 in
  let st' := (fetchWikipediaSummary wiki topic st).2 in
  (res.2 = None ∨ (res.1 = EmptyString ∧ res.2 ≠ None))
  ∧ ∃ new : list (Call Page),
      calls st' = (calls st ++ new)%list
      ∧ count isGetPage new = 1%nat
      ∧ (count isGetSummary new ≤ 1)%nat
      ∧ count isReadAll new = 0%nat
      ∧ ∀ p, CallGetSummary p ∈ new →
             (GetPage wiki topic (-1) false false (world st)).1 = (p, None).
Proof.
  cbn zeta.
  destruct (GetPage wiki topic (-1) false false (world st)) as [[p [e|]] wd] eqn:HP.
  - rewrite (fetch_page_error _ _ _ _ _ HP). cbn. split; [by right|].
    exists [CallGetPage topic (-1) false false].
    repeat split; [cbn; lia|].
    intros q Hq. apply list_elem_of_singleton in Hq. done.
  - rewrite (fetch_page_ok _ _ _ _ HP).
    destruct (GetSummary wiki p wd) as [[s [e|]] wd']; cbn.
    all: split; [by (left + right)|].
    all: exists [CallGetPage topic (-1) false false; CallGetSummary p].
    all: repeat split; [by rewrite <- app_assoc | cbn; lia |].
    all: intros q Hq; apply elem_of_cons in Hq as [Hq|Hq]; [done|].
    all: apply list_elem_of_singleton in Hq; by simplify_eq.
Qed.

(** *** The lookup handler *)

(** C1: a POST to [/lookup] whose body is read and for which the
    fetcher returns summary [s] with no error is answered with status
    200 and body [s]: the handler makes one [Write], of [s] itself. *)
Theorem lookup_success_verbatim args environ r st topic st1 s st' :
  http.URLPath r = "/lookup" →
  http.Method r = http.MethodPost →
  io_ReadAll (http.Body r) st = ((topic, None), st1) →
  fetchWikipediaSummary wiki topic st1 = ((s, None), st') →
  (∃ w, lookupHandler wiki http.newResponseWriter r st = (w, st')
        ∧ http.writes w = [s])
  ∧ serve wiki appVersion muxAnswer args environ r st
    = ({| http.StatusCode := 200; http.ResponseHeader := ∅;
          http.ResponseBody := s |}, st').
Proof.
  intros Hp Hm Hr Hf. unfold io_ReadAll in Hr.
  injection Hr as Hb <-.
  rewrite (serve_lookup _ _ _ _ Hp), (lookup_read_ok _ _ _ _ Hm Hb), Hf.
  split; [by eexists|]. by rewrite finish_Write_fresh.
Qed.

(** C2: a request to [/lookup] whose method is not POST is answered
    with status 405; the state is left as it was: nothing is added to
    the log of calls (no read of the body, no call of the provider)
    and the world is untouched. *)
Theorem lookup_method_not_allowed args environ r st :
  http.URLPath r = "/lookup" →
  http.Method r ≠ http.MethodPost →
  let resp := (serve wiki appVersion muxAnswer args environ r st).1 in
  let st' := (serve wiki appVersion muxAnswer args environ r st).2 in
  http.StatusCode resp = 405
  ∧ http.ResponseBody resp = "POST required" +:+ String LF EmptyString
  ∧ calls st' = calls st ∧ world st' = world st.
Proof.
  intros Hp Hm.
  rewrite (serve_lookup _ _ _ _ Hp), (lookup_not_POST _ _ _ Hm).
  cbn zeta. by rewrite finish_Error_fresh.
Qed.

(** C3: a POST to [/lookup] for which the fetcher returns error [e] is
    answered with status 500, and the body is [lookup error: ]
    followed by the text of [e] (and a newline). *)
Theorem lookup_error_500 args environ r st topic st1 s e st' :
  http.URLPath r = "/lookup" →
  http.Method r = http.MethodPost →
  io_ReadAll (http.Body r) st = ((topic, None), st1) →
  fetchWikipediaSummary wiki topic st1 = ((s, Some e), st') →
  let resp := (serve wiki appVersion muxAnswer args environ r st).1 in
  http.StatusCode resp = 500
  ∧ http.ResponseBody resp = "lookup error: " +:+ Error e +:+ String LF EmptyString
  ∧ contains (http.ResponseBody resp) ("lookup error: " +:+ Error e).
Proof.
  intros Hp Hm Hr Hf. unfold io_ReadAll in Hr.
  injection Hr as Hb <-.
  rewrite (serve_lookup _ _ _ _ Hp), (lookup_read_ok _ _ _ _ Hm Hb), Hf.
  cbn zeta. rewrite finish_Error_fresh. cbn.
  unfold fmt.Sprintf_lookup_error. rewrite append_assoc.
  repeat split. rewrite <- append_assoc. apply contains_prefix.
Qed.

(** [io.ReadAll] returns every chunk of the reader, joined, and the
    way the reader ends. *)
Lemma ReadAll_chunks (rd : io.Reader E) :
  io.ReadAll rd = (foldr String.append EmptyString (io.chunks rd), io.ending rd).
Proof.
  induction rd as [|err|p rest IH]; [done..|].
  cbn [io.ReadAll io.chunks io.ending foldr]. by rewrite IH.
Qed.

(** C6: on a POST to [/lookup] whose body is read without error, the
    topic the fetcher runs on is the body itself: every byte of every
    chunk the body delivers, in order, nothing cut, trimmed or checked
    (the empty body gives the empty topic, which goes to the provider
    like any other).  The handler ends in the state the fetcher ends in
    on that topic, and the one [GetPage] call logged has those bytes as
    its title. *)
Theorem lookup_topic_is_body args environ r st :
  http.URLPath r = "/lookup" →
  http.Method r = http.MethodPost →
  (io.ReadAll (http.Body r)).2 = None →
  let st' := (serve wiki appVersion muxAnswer args environ r st).2 in
  st' = (fetchWikipediaSummary wiki (bodyBytes r) (called CallReadAll (world st) st)).2
  ∧ ∃ rest : list (Call Page),
      calls st' = (calls st ++ CallReadAll
                     :: CallGetPage (bodyBytes r) (-1) false false :: rest)%list
      ∧ count isGetPage rest = 0%nat.
Proof.
  intros Hp Hm Hok. unfold bodyBytes.
  pose proof (ReadAll_chunks (http.Body r)) as Hb.
  rewrite Hb in Hok. cbn [snd] in Hok. rewrite Hok in Hb.
  set (b := foldr String.append EmptyString (io.chunks (http.Body r))) in *.
  rewrite (serve_lookup _ _ _ _ Hp), (lookup_read_ok _ _ _ _ Hm Hb).
  cbn zeta.
  pose proof (fetch_calls b (called CallReadAll (world st) st)) as Hc.
  destruct (GetPage wiki b (-1) false false _) as [[p perr] wd].
  destruct (fetchWikipediaSummary wiki b _) as [[s [e|]] st2]; cbn in *.
  all: split; [done|].
  all: rewrite Hc, <- app_assoc; eexists; split; [done|].
  all: by destruct perr.
Qed.

(** C7: a POST to [/lookup] whose body cannot be read is answered with
    status 400; the read is the only call made: the provider is not
    called and the world is untouched. *)
Theorem lookup_unreadable_body args environ r st b e :
  http.URLPath r = "/lookup" →
  http.Method r = http.MethodPost →
  io.ReadAll (http.Body r) = (b, Some e) →
  let resp := (serve wiki appVersion muxAnswer args environ r st).1 in
  let st' := (serve wiki appVersion muxAnswer args environ r st).2 in
  http.StatusCode resp = 400
  ∧ http.ResponseBody resp = "cannot read body" +:+ String LF EmptyString
  ∧ calls st' = (calls st ++ [CallReadAll])%list
  ∧ world st' = world st.
Proof.
  intros Hp Hm Hb.
  rewrite (serve_lookup _ _ _ _ Hp), (lookup_read_error _ _ _ _ _ Hm Hb).
  cbn zeta. by rewrite finish_Error_fresh.
Qed.

(** *** Determinism *)

Lemma fetch_fixed topic st1 st2 :
  fixedProvider wiki →
  (fetchWikipediaSummary wiki topic st1).1 = (fetchWikipediaSummary wiki topic st2).1.
Proof.
  intros (pageOf & summaryOf & HP & HS).
  pose proof (HP topic (-1) false false (world st1)) as H1.
  pose proof (HP topic (-1) false false (world st2)) as H2.
  destruct (GetPage wiki topic (-1) false false (world st1)) as [[p1 e1] wd1] eqn:G1.
  destruct (GetPage wiki topic (-1) false false (world st2)) as [[p2 e2] wd2] eqn:G2.
  cbn in H1, H2. assert (p1 = p2 ∧ e1 = e2) as [<- <-] by (split; congruence).
  destruct e1 as [e|].
  - by rewrite (fetch_page_error _ _ _ _ _ G1), (fetch_page_error _ _ _ _ _ G2).
  - rewrite (fetch_page_ok _ _ _ _ G1), (fetch_page_ok _ _ _ _ G2).
    pose proof (HS p1 wd1) as S1. pose proof (HS p1 wd2) as S2.
    destruct (GetSummary wiki p1 wd1) as [[s1 e1] wd1'].
    destruct (GetSummary wiki p1 wd2) as [[s2 e2] wd2'].
    cbn in S1, S2. assert (s1 = s2 ∧ e1 = e2) as [<- <-] by (split; congruence).
    by destruct e1.
Qed.

Lemma lookup_fixed r w st1 st2 :
  fixedProvider wiki →
  (lookupHandler wiki w r st1).1 = (lookupHandler wiki w r st2).1.
Proof.
  intros Hfix.
  destruct (decide (http.Method r = http.MethodPost)) as [Hm|Hm].
  - destruct (io.ReadAll (http.Body r)) as [b [e|]] eqn:Hb.
    + by rewrite !(lookup_read_error _ _ _ _ _ Hm Hb).
    + rewrite !(lookup_read_ok _ _ _ _ Hm Hb).
      pose proof (fetch_fixed b (called CallReadAll (world st1) st1)
                    (called CallReadAll (world st2) st2) Hfix) as Hf.
      destruct (fetchWikipediaSummary wiki b (called CallReadAll (world st1) st1))
        as [[s1 e1] st1'].
      destruct (fetchWikipediaSummary wiki b (called CallReadAll (world st2) st2))
        as [[s2 e2] st2'].
      cbn in Hf. injection Hf as <- <-. by destruct e1.
  - by rewrite !(lookup_not_POST _ _ _ Hm).
Qed.

End AgentFacts.

(** C9: with the provider a fixed function, the response to a request
    to [/lookup] (a POST in particular) is determined by the request:
    two runs on the same request give the same status, headers and body,
    whatever the states they start in (world, log of calls) and whatever
    the version string, command line and environment of the process. *)
Theorem lookup_deterministic {World Page E : Type} `{!GoError E}
    (wiki : Wiki World Page E) (r : http.Request E)
    (v1 v2 : string) (mux1 mux2 : string → string → http.Response)
    (args1 args2 : list string)
    (environ1 environ2 : list (string * string))
    (st1 st2 : State World Page) :
  fixedProvider wiki →
  http.URLPath r = "/lookup" →
  (serve wiki v1 mux1 args1 environ1 r st1).1
  = (serve wiki v2 mux2 args2 environ2 r st2).1.
Proof.
  intros Hfix Hp. rewrite !(serve_lookup _ _ _ _ _ _ _ Hp).
  pose proof (lookup_fixed wiki r http.newResponseWriter st1 st2 Hfix) as H.
  destruct (lookupHandler wiki http.newResponseWriter r st1) as [w1 st1'].
  destruct (lookupHandler wiki http.newResponseWriter r st2) as [w2 st2'].
  cbn in *. by rewrite H.
Qed.

(** ** The JSON encoder *)

Lemma append_not_empty (c : ascii) (s t : string) : String c s +:+ t ≠ EmptyString.
Proof. done. Qed.

Lemma escapeByte_not_empty (c : ascii) : json.escapeByte c ≠ EmptyString.
Proof. unfold json.escapeByte. cbn zeta. repeat case_match; done. Qed.

(** The decoder never reports width 0 on a string that has a byte. *)
Lemma DecodeRune_width (c : ascii) (s : string) :
  (utf8.DecodeRuneInString (String c s)).2 ≠ 0%nat.
Proof.
  unfold utf8.DecodeRuneInString. cbn zeta. repeat case_match; done.
Qed.

(** A string that is not empty is not encoded as the empty literal. *)
Lemma appendString_loop_not_empty (src : string) :
  src ≠ EmptyString → json.appendString_loop src 0 ≠ EmptyString.
Proof.
  destruct src as [|c rest]; [done|]. intros _.
  pose proof (DecodeRune_width c rest) as Hw.
  pose proof (escapeByte_not_empty c) as He.
  cbn [json.appendString_loop]. cbn zeta.
  destruct (utf8.DecodeRuneInString (String c rest)) as [rn size].
  cbn in Hw. destruct size as [|size]; [done|].
  destruct (json.escapeByte c) as [|c' e'] eqn:Hesc; [done|].
  repeat case_match; done.
Qed.

Lemma appendString_quoted (src : string) :
  json.appendString src = quoted (json.appendString_loop src 0).
Proof. done. Qed.

Lemma first_lo (b0 : Z) (sz : nat) (lo hi : Z) :
  utf8.first b0 = Some (sz, lo, hi) → 0x80 ≤ lo.
Proof. unfold utf8.first. repeat case_match; intros [= <- <- <-]; lia. Qed.

Lemma cont_high (b : Z) : utf8.cont b = true → 0x80 ≤ b.
Proof. unfold utf8.cont. intros [H _]%andb_prop. by apply Z.leb_le. Qed.

Lemma substring_0_0 (s : string) : String.substring 0 0 s = EmptyString.
Proof. by destruct s. Qed.

Lemma length_append (a b : string) :
  String.length (a +:+ b) = (String.length a + String.length b)%nat.
Proof.
  induction a as [|c a IH]; [done|].
  change (S (String.length (a +:+ b)) = S (String.length a + String.length b)).
  by rewrite IH.
Qed.

(** *** What the encoder writes is a JSON string *)

Lemma jsonToken_app (t1 t2 : string) :
  jsonToken t1 → jsonToken t2 → jsonToken (t1 +:+ t2).
Proof. intros H1 H2 rest. by rewrite append_assoc, H1, H2. Qed.

(** A byte below [0x80], copied or escaped, is read as one character. *)
Lemma jsonToken_ascii (c : ascii) :
  jsonToken (if json.htmlSafeSet (byte_val c) then String c EmptyString
             else json.escapeByte c).
Proof.
  destruct c as [[] [] [] [] [] [] [] []]; intros rest; reflexivity.
Qed.

Lemma jsonToken_high (t : string) :
  allBytes (Z.leb 0x80) t = true → jsonToken t.
Proof.
  induction t as [|c t IH]; [done|].
  cbn [allBytes]. intros [Hc Ht]%andb_prop rest.
  apply Z.leb_le in Hc.
  change (jsonStringChars (String c (t +:+ rest)) = jsonStringChars rest).
  cbn [jsonStringChars].
  rewrite (proj2 (Z.eqb_neq (byte_val c) 0x5C)) by lia.
  rewrite (proj2 (Z.eqb_neq (byte_val c) 0x22)) by lia.
  rewrite (proj2 (Z.leb_le 0x20 (byte_val c))) by lia.
  cbn [andb negb]. by apply IH.
Qed.

(** The bytes of a rune the decoder accepts, beyond ASCII, are all
    [0x80] or more. *)
Lemma decoded_bytes_high (c : ascii) (rest : string) (rn : Z) (size : nat) :
  (byte_val c <? utf8.RuneSelf) = false →
  utf8.DecodeRuneInString (String c rest) = (rn, size) →
  (rn =? utf8.RuneError) && (size =? 1)%nat = false →
  allBytes (Z.leb 0x80) (String.substring 0 size (String c rest)) = true.
Proof.
  intros Hc Hd Hok. unfold utf8.DecodeRuneInString in Hd. cbn zeta in Hd.
  rewrite Hc in Hd.
  assert ((0x80 <=? byte_val c) = true) as Pc.
  { apply Z.leb_le. unfold utf8.RuneSelf in Hc. lia. }
  destruct (utf8.first (byte_val c)) as [[[sz lo] hi]|] eqn:Hf;
    [|by simplify_eq].
  apply first_lo in Hf.
  destruct rest as [|c1 s1]; [by simplify_eq|].
  destruct ((byte_val c1 <? lo) || (hi <? byte_val c1)) eqn:H1; [by simplify_eq|].
  apply orb_false_elim in H1 as [H1 _].
  assert ((0x80 <=? byte_val c1) = true) as P1 by (apply Z.leb_le; lia).
  destruct (sz <=? 2)%nat.
  { simplify_eq. cbn [String.substring allBytes].
    by rewrite substring_0_0, Pc, P1. }
  destruct s1 as [|c2 s2]; [by simplify_eq|].
  destruct (utf8.cont (byte_val c2)) eqn:H2; cbn [negb] in Hd; [|by simplify_eq].
  assert ((0x80 <=? byte_val c2) = true) as P2
    by (apply Z.leb_le; by apply cont_high).
  destruct (sz <=? 3)%nat.
  { simplify_eq. cbn [String.substring allBytes].
    by rewrite substring_0_0, Pc, P1, P2. }
  destruct s2 as [|c3 s3]; [by simplify_eq|].
  destruct (utf8.cont (byte_val c3)) eqn:H3; cbn [negb] in Hd; [|by simplify_eq].
  assert ((0x80 <=? byte_val c3) = true) as P3
    by (apply Z.leb_le; by apply cont_high).
  simplify_eq. cbn [String.substring allBytes].
  by rewrite substring_0_0, Pc, P1, P2, P3.
Qed.

(** Whatever the string, what the encoder writes for it between the
    quotes reads as JSON string characters to the end. *)
Lemma appendString_loop_json (src : string) (skip : nat) :
  jsonStringChars (json.appendString_loop src skip) = true.
Proof.
  revert skip. induction src as [|c rest IH]; intros skip; [done|].
  cbn [json.appendString_loop]. destruct skip as [|k]; [|apply IH].
  cbn zeta.
  destruct (byte_val c <? utf8.RuneSelf) eqn:Hc.
  - by rewrite (jsonToken_ascii c).
  - destruct (utf8.DecodeRuneInString (String c rest)) as [rn size] eqn:Hd.
    destruct ((rn =? utf8.RuneError) && (size =? 1)%nat) eqn:Hok.
    + apply IH.
    + destruct ((rn =? 0x2028) || (rn =? 0x2029)) eqn:Hsep.
      * apply orb_prop in Hsep as [->%Z.eqb_eq| ->%Z.eqb_eq]; apply IH.
      * rewrite (jsonToken_high _ (decoded_bytes_high c rest rn size Hc Hd Hok)).
        apply IH.
Qed.

(** The encoding is empty only for the empty string. *)
Lemma appendString_loop_empty (src : string) :
  json.appendString_loop src 0 = EmptyString ↔ src = EmptyString.
Proof.
  split; [|by intros ->].
  intros H. destruct (decide (src = EmptyString)) as [|Hne]; [done|].
  by apply appendString_loop_not_empty in Hne.
Qed.

(** The order in which the two members of the version object are
    written. *)
Lemma sortedEntries_version (v : string) :
  json.sortedEntries (<["name" := "wikipedia-agent"]> (<["version" := v]> ∅))
  = [("name", "wikipedia-agent"); ("version", v)].
Proof. by vm_compute. Qed.

Section Endpoints.

Context {World Page E : Type} `{!GoError E}.
Variable wiki : Wiki World Page E.
Variable appVersion : string.
Variable muxAnswer : string → string → http.Response.

Implicit Types (st : State World Page) (r : http.Request E).

(** C4, as the code has it: every request to [/health], whatever its
    method, is answered with status 200, [Content-Type:
    application/json], and a body that is the JSON text
    [{"status":"ok"}] followed by one newline; the state is left as it
    was. *)
Theorem health_response args environ r st :
  http.URLPath r = "/health" →
  let resp := (serve wiki appVersion muxAnswer args environ r st).1 in
  http.StatusCode resp = 200
  ∧ http.ResponseBody resp = healthJSON +:+ String LF EmptyString
  ∧ http.ResponseHeader resp !! "Content-Type" = Some ["application/json"]
  ∧ (serve wiki appVersion muxAnswer args environ r st).2 = st.
Proof.
  intros Hp. rewrite (serve_health _ _ _ _ _ _ _ Hp). cbn zeta.
  repeat split; by vm_compute.
Qed.

(** The body of [/version] for any version string. *)
Lemma version_body args environ r st :
  http.URLPath r = "/version" →
  serve wiki appVersion muxAnswer args environ r st
  = ({| http.StatusCode := 200;
        http.ResponseHeader := <["Content-Type" := ["application/json"]]> ∅;
        http.ResponseBody :=
          versionJSON (json.appendString_loop appVersion 0) +:+ String LF EmptyString |},
     st).
Proof.
  intros Hp. rewrite (serve_version _ _ _ _ _ _ _ Hp).
  unfold http.finish. cbn. rewrite append_nil_r.
  unfold json.Marshal. rewrite sortedEntries_version.
  unfold versionJSON, nameField, quoted, json.joinMembers, json.member, json.appendString.
  cbn [fst snd]. rewrite !append_assoc. reflexivity.
Qed.

(** C8, as the code has it: every request to [/version], whatever its
    method, is answered with status 200 and a JSON object that has the
    member [name] with the string [wikipedia-agent] and a member
    [version] whose string is the package variable [appVersion] as the
    encoder writes it: a well-formed JSON string, empty exactly when
    [appVersion] is empty (so not empty for [dev], the value the source
    declares, and empty when the build sets the variable to the empty
    string). *)
Theorem version_response args environ r st :
  http.URLPath r = "/version" →
  let resp := (serve wiki appVersion muxAnswer args environ r st).1 in
  http.StatusCode resp = 200
  ∧ http.ResponseHeader resp !! "Content-Type" = Some ["application/json"]
  ∧ contains (http.ResponseBody resp) nameField
  ∧ ∃ v : string,
      http.ResponseBody resp = versionJSON v +:+ String LF EmptyString
      ∧ json.appendString appVersion = quoted v
      ∧ jsonStringChars v = true
      ∧ (v = EmptyString ↔ appVersion = EmptyString).
Proof.
  intros Hp. rewrite (version_body _ _ _ _ Hp). cbn zeta. cbn [fst].
  cbn [http.StatusCode http.ResponseHeader http.ResponseBody].
  split; [done|]. split; [by vm_compute|]. split.
  - exists "{". eexists. unfold versionJSON.
    rewrite !append_assoc. reflexivity.
  - exists (json.appendString_loop appVersion 0).
    split; [done|]. split; [done|].
    split; [apply appendString_loop_json | apply appendString_loop_empty].
Qed.

(** [main] does not look at the command line or the environment: the
    address is [:8080] and every request is served the same way. *)
Lemma main_ignores_configuration args environ :
  listenAddr (main wiki appVersion args environ) = ":8080"
  ∧ ∀ r st, serve wiki appVersion muxAnswer args environ r st
            = serve wiki appVersion muxAnswer [] [] r st.
Proof. done. Qed.

End Endpoints.

(** ** The handlers on the fake provider *)

(** C1 on the topic [General relativity]. *)
Lemma lookup_success_verbatim_witness :
  let r := Fixture.request "POST" "/lookup" "General relativity" in
  let st' : State nat Fixture.page :=
    {| world := 2%nat;
       calls := [CallReadAll; CallGetPage "General relativity" (-1) false false;
                 CallGetSummary Fixture.GeneralRelativity] |} in
  (∃ w, lookupHandler Fixture.wiki http.newResponseWriter r Fixture.start = (w, st')
        ∧ http.writes w = [Fixture.summaryGR])
  ∧ serve Fixture.wiki defaultVersion Fixture.muxAnswer [] [] r Fixture.start
    = ({| http.StatusCode := 200; http.ResponseHeader := ∅;
          http.ResponseBody := Fixture.summaryGR |}, st').
Proof.
  intros r st'.
  apply (lookup_success_verbatim Fixture.wiki defaultVersion Fixture.muxAnswer [] [] r Fixture.start
           "General relativity" Fixture.afterRead Fixture.summaryGR st');
    reflexivity.
Defined.

(** C2 on a GET. *)
Lemma lookup_method_not_allowed_witness :
  let run := Fixture.run "GET" "/lookup" "General relativity" in
  http.StatusCode run.1 = 405
  ∧ http.ResponseBody run.1 = "POST required" +:+ String LF EmptyString
  ∧ calls run.2 = [] ∧ world run.2 = 0%nat.
Proof.
  apply (lookup_method_not_allowed Fixture.wiki defaultVersion Fixture.muxAnswer [] []
           (Fixture.request "GET" "/lookup" "General relativity") Fixture.start);
    [reflexivity | discriminate].
Defined.

(** C3 on a topic that resolves to a disambiguation page. *)
Lemma lookup_error_500_witness :
  let resp := (Fixture.run "POST" "/lookup" "Mercury").1 in
  http.StatusCode resp = 500
  ∧ http.ResponseBody resp
    = "lookup error: " +:+ Error Fixture.Disambiguation +:+ String LF EmptyString
  ∧ contains (http.ResponseBody resp) ("lookup error: " +:+ Error Fixture.Disambiguation).
Proof.
  apply (lookup_error_500 Fixture.wiki defaultVersion Fixture.muxAnswer [] []
           (Fixture.request "POST" "/lookup" "Mercury") Fixture.start
           "Mercury" Fixture.afterRead EmptyString Fixture.Disambiguation
           {| world := 2%nat;
              calls := [CallReadAll; CallGetPage "Mercury" (-1) false false;
                        CallGetSummary Fixture.Mercury] |});
    reflexivity.
Defined.

(** C6 on a body that comes in three reads, blanks and a line feed
    around the words: all of it is the topic. *)
Lemma lookup_topic_is_body_witness :
  let topic := "  General relativity " +:+ String LF EmptyString in
  let st' := (serve Fixture.wiki defaultVersion Fixture.muxAnswer [] []
                Cases.padded Fixture.start).2 in
  st' = (fetchWikipediaSummary Fixture.wiki topic Fixture.afterRead).2
  ∧ ∃ rest : list (Call Fixture.page),
      calls st' = ([] ++ CallReadAll :: CallGetPage topic (-1) false false :: rest)%list
      ∧ count isGetPage rest = 0%nat.
Proof.
  apply (lookup_topic_is_body Fixture.wiki defaultVersion Fixture.muxAnswer [] []
           Cases.padded Fixture.start); reflexivity.
Defined.

(** With no body at all the topic is the empty string, and it goes to
    the provider. *)
Example lookup_empty_body :
  calls (serve Fixture.wiki defaultVersion Fixture.muxAnswer [] []
           Cases.bodiless Fixture.start).2
  = [CallReadAll; CallGetPage EmptyString (-1) false false].
Proof. reflexivity. Qed.

(** C7 on a body that breaks off. *)
Lemma lookup_unreadable_body_witness :
  let run := serve Fixture.wiki defaultVersion Fixture.muxAnswer [] [] Fixture.truncated Fixture.start in
  http.StatusCode run.1 = 400
  ∧ http.ResponseBody run.1 = "cannot read body" +:+ String LF EmptyString
  ∧ calls run.2 = [CallReadAll]
  ∧ world run.2 = 0%nat.
Proof.
  apply (lookup_unreadable_body Fixture.wiki defaultVersion Fixture.muxAnswer [] []
           Fixture.truncated Fixture.start "General rel" Fixture.Unreachable);
    reflexivity.
Defined.

(** C9 on two runs that start in different states, in processes started
    differently. *)
Lemma lookup_deterministic_witness :
  let r := Fixture.request "POST" "/lookup" "General relativity" in
  (serve Fixture.wiki defaultVersion Fixture.muxAnswer [] [] r Fixture.start).1
  = (serve Fixture.wiki "v1.2.3" (λ _ _, http.finish http.newResponseWriter) documentedFlags [("LANG", "de")] r Fixture.later).1.
Proof.
  intros r.
  apply (lookup_deterministic Fixture.wiki r defaultVersion "v1.2.3"
           Fixture.muxAnswer (λ _ _, http.finish http.newResponseWriter) []
           documentedFlags [] [("LANG", "de")] Fixture.start Fixture.later);
    [|reflexivity].
  exists (λ title pageid suggest redirect,
            (GetPage Fixture.wiki title pageid suggest redirect 0%nat).1).
  exists (λ p, (GetSummary Fixture.wiki p 0%nat).1).
  split; [intros title pageid suggest redirect wd | intros p wd]; reflexivity.
Defined.

(** C4 as the specification words it fails on a GET: the body is not
    the bare JSON text, the encoder ends it with a newline. *)
Lemma health_body_not_bare :
  let resp := (Fixture.run "GET" "/health" EmptyString).1 in
  ¬ (http.StatusCode resp = 200
     ∧ http.ResponseBody resp = healthJSON
     ∧ http.ResponseHeader resp !! "Content-Type" = Some ["application/json"]).
Proof. intros resp (_ & Hbody & _). vm_compute in Hbody. discriminate. Qed.

(** C4 as amended, on a GET and on a DELETE. *)
Lemma health_response_witness :
  let resp := (Fixture.run "DELETE" "/health" EmptyString).1 in
  http.StatusCode resp = 200
  ∧ http.ResponseBody resp = healthJSON +:+ String LF EmptyString
  ∧ http.ResponseHeader resp !! "Content-Type" = Some ["application/json"]
  ∧ (Fixture.run "DELETE" "/health" EmptyString).2 = Fixture.start.
Proof.
  apply (health_response Fixture.wiki defaultVersion Fixture.muxAnswer [] []
           (Fixture.request "DELETE" "/health" EmptyString) Fixture.start).
  reflexivity.
Defined.

(** C8 as the specification words it fails when the build sets
    [appVersion] to the empty string: the member [version] is there, and
    its string is empty. *)
Lemma version_field_can_be_empty :
  let resp := (serve Fixture.wiki EmptyString Fixture.muxAnswer [] []
                 (Fixture.request "GET" "/version" EmptyString) Fixture.start).1 in
  ¬ (http.StatusCode resp = 200
     ∧ contains (http.ResponseBody resp) nameField
     ∧ ∃ v : string,
         v ≠ EmptyString
         ∧ http.ResponseBody resp = versionJSON v +:+ String LF EmptyString).
Proof.
  intros resp (_ & _ & v & Hv & Hb).
  assert (http.ResponseBody resp
          = versionJSON EmptyString +:+ String LF EmptyString) as Hbody
    by (by vm_compute).
  rewrite Hbody in Hb. apply (f_equal String.length) in Hb.
  unfold versionJSON, quoted in Hb. rewrite !length_append in Hb.
  cbn [String.length] in Hb. clear -Hb Hv.
  destruct v as [|c v]; [done|]. cbn [String.length] in Hb. lia.
Qed.

(** The body of [/version] when [appVersion] is the empty string. *)
Example version_body_unset :
  http.ResponseBody
    (serve Fixture.wiki EmptyString Fixture.muxAnswer [] []
       (Fixture.request "GET" "/version" EmptyString) Fixture.start).1
  = versionJSON EmptyString +:+ String LF EmptyString.
Proof. by vm_compute. Qed.

(** C8 as amended, on the version the source declares. *)
Lemma version_response_witness :
  let resp := (Fixture.run "PUT" "/version" EmptyString).1 in
  http.StatusCode resp = 200
  ∧ http.ResponseHeader resp !! "Content-Type" = Some ["application/json"]
  ∧ contains (http.ResponseBody resp) nameField
  ∧ ∃ v : string,
      http.ResponseBody resp = versionJSON v +:+ String LF EmptyString
      ∧ json.appendString defaultVersion = quoted v
      ∧ jsonStringChars v = true
      ∧ (v = EmptyString ↔ defaultVersion = EmptyString).
Proof.
  apply (version_response Fixture.wiki defaultVersion Fixture.muxAnswer [] []
           (Fixture.request "PUT" "/version" EmptyString) Fixture.start).
  reflexivity.
Defined.

(** A version with a double quote and a backslash in it: both are
    escaped, and the text between the quotes reads as a JSON string. *)
Example version_quote_backslash :
  json.appendString ("a" +:+ String dquote (String backslash "b"))
  = quoted ("a" +:+ String backslash (String dquote (String backslash (String backslash "b")))).
Proof. by vm_compute. Qed.

(** Text that is no JSON string: a bare double quote, a lone backslash,
    a line feed. *)
Example jsonStringChars_rejects :
  jsonStringChars ("a" +:+ String dquote "b") = false
  ∧ jsonStringChars ("a" +:+ String backslash EmptyString) = false
  ∧ jsonStringChars ("a" +:+ String backslash "x") = false
  ∧ jsonStringChars ("a" +:+ String LF "b") = false.
Proof. by vm_compute. Qed.

(** C5: started with the flags the README documents, the process still
    listens on [:8080], prints that address, and asks the provider for
    the page with the same fixed arguments [-1, false, false]. *)
Theorem flags_have_no_effect :
  let started := main Fixture.wiki defaultVersion documentedFlags [("LANG", "de")] in
  let run := serve Fixture.wiki defaultVersion Fixture.muxAnswer documentedFlags [("LANG", "de")]
               (Fixture.request "POST" "/lookup" "Mercury") Fixture.start in
  listenAddr started = ":8080"
  ∧ stdout started = "Wikipedia Agent vdev listening on :8080" +:+ String LF EmptyString
  ∧ calls run.2 = [CallReadAll; CallGetPage "Mercury" (-1) false false;
                   CallGetSummary Fixture.Mercury]
  ∧ run = Fixture.run "POST" "/lookup" "Mercury".
Proof. repeat split. Qed.

(** The body of [/version] as the source is built by default. *)
Example version_body_dev :
  http.ResponseBody (Fixture.run "GET" "/version" EmptyString).1
  = versionJSON "dev" +:+ String LF EmptyString.
Proof. by vm_compute. Qed.

(** A version string with a byte that the encoder escapes. *)
Example appendString_escapes :
  json.appendString ("v1<2" +:+ String LF EmptyString)
  = quoted ("v1" +:+ String backslash "u003c2" +:+ String backslash "n").
Proof. by vm_compute. Qed.

(** * More on the lookup handler *)

Section LookupFacts.

Context {World Page E : Type} `{!GoError E}.
Variable wiki : Wiki World Page E.
Variable appVersion : string.
Variable muxAnswer : string → string → http.Response.

Implicit Types (st : State World Page) (r : http.Request E) (topic : string).

(** The fetcher succeeds exactly when both operations of the provider
    do: it returns [(s, nil)] if and only if [GetPage] returned a page
    with a nil error and [GetSummary], on that page and in the world
    [GetPage] left, returned [s] with a nil error. *)
Theorem fetch_success_iff topic st s :
  (fetchWikipediaSummary wiki topic st).1 = (s, None)
  ↔ ∃ p wd wd',
      GetPage wiki topic (-1) false false (world st) = ((p, None), wd)
      ∧ GetSummary wiki p wd = ((s, None), wd').
Proof.
  destruct (GetPage wiki topic (-1) false false (world st)) as [[p [e|]] wd] eqn:HP.
  - rewrite (fetch_page_error _ _ _ _ _ _ HP). cbn. split; [done|].
    by intros (? & ? & ? & ? & _).
  - rewrite (fetch_page_ok _ _ _ _ _ HP).
    destruct (GetSummary wiki p wd) as [[s0 [e|]] wd'] eqn:HS; cbn.
    + split; [done|]. intros (p' & wd1 & wd2 & Hp' & HS').
      simplify_eq. rewrite HS in HS'. done.
    + split.
      * intros [= <-]. by exists p, wd, wd'.
      * intros (p' & wd1 & wd2 & Hp' & HS').
        simplify_eq. rewrite HS in HS'. by simplify_eq.
Qed.

(** When [GetPage] fails on the topic read from the body, the answer is
    500 with the text of that error; [GetSummary] is not called and the
    world is the one [GetPage] left. *)
Theorem lookup_page_error args environ r st b p e wd :
  http.URLPath r = "/lookup" →
  http.Method r = http.MethodPost →
  io.ReadAll (http.Body r) = (b, None) →
  GetPage wiki b (-1) false false (world st) = ((p, Some e), wd) →
  serve wiki appVersion muxAnswer args environ r st
  = ({| http.StatusCode := 500; http.ResponseHeader := errorHeader;
        http.ResponseBody := "lookup error: " +:+ Error e +:+ String LF EmptyString |},
     {| world := wd;
        calls := calls st ++ [CallReadAll; CallGetPage b (-1) false false] |}).
Proof.
  intros Hp Hm Hb HP.
  rewrite (serve_lookup _ _ _ _ _ _ _ Hp), (lookup_read_ok _ _ _ _ _ Hm Hb).
  rewrite (fetch_page_error wiki b (called CallReadAll (world st) st) p e wd HP).
  cbv beta iota zeta. rewrite finish_Error_fresh. unfold fmt.Sprintf_lookup_error, called. cbn.
  by rewrite append_assoc, <- app_assoc.
Qed.

(** When [GetPage] succeeds and [GetSummary] fails, the answer is 500
    with the text of the error of [GetSummary]; whatever text
    [GetSummary] returned beside its error is not in the response. *)
Theorem lookup_summary_error args environ r st b p wd s e wd' :
  http.URLPath r = "/lookup" →
  http.Method r = http.MethodPost →
  io.ReadAll (http.Body r) = (b, None) →
  GetPage wiki b (-1) false false (world st) = ((p, None), wd) →
  GetSummary wiki p wd = ((s, Some e), wd') →
  serve wiki appVersion muxAnswer args environ r st
  = ({| http.StatusCode := 500; http.ResponseHeader := errorHeader;
        http.ResponseBody := "lookup error: " +:+ Error e +:+ String LF EmptyString |},
     {| world := wd'; calls := calls st ++ lookupCalls b p |}).
Proof.
  intros Hp Hm Hb HP HS.
  rewrite (serve_lookup _ _ _ _ _ _ _ Hp), (lookup_read_ok _ _ _ _ _ Hm Hb).
  rewrite (fetch_page_ok wiki b (called CallReadAll (world st) st) p wd HP), HS.
  cbv beta iota zeta. rewrite finish_Error_fresh. unfold fmt.Sprintf_lookup_error, called, lookupCalls. cbn.
  by rewrite append_assoc, <- !app_assoc.
Qed.

(** When both operations succeed, the answer is 200 with the summary
    as its body and no header set by the handler; the calls made are the
    read, [GetPage] on the body, and [GetSummary] on the page found, in
    this order, [GetSummary] running in the world [GetPage] left. *)
Theorem lookup_provider_success args environ r st b p wd s wd' :
  http.URLPath r = "/lookup" →
  http.Method r = http.MethodPost →
  io.ReadAll (http.Body r) = (b, None) →
  GetPage wiki b (-1) false false (world st) = ((p, None), wd) →
  GetSummary wiki p wd = ((s, None), wd') →
  serve wiki appVersion muxAnswer args environ r st
  = ({| http.StatusCode := 200; http.ResponseHeader := ∅; http.ResponseBody := s |},
     {| world := wd'; calls := calls st ++ lookupCalls b p |}).
Proof.
  intros Hp Hm Hb HP HS.
  rewrite (serve_lookup _ _ _ _ _ _ _ Hp), (lookup_read_ok _ _ _ _ _ Hm Hb).
  rewrite (fetch_page_ok wiki b (called CallReadAll (world st) st) p wd HP), HS.
  cbv beta iota zeta. unfold fmt.Fprint. rewrite finish_Write_fresh. unfold called, lookupCalls. cbn.
  by rewrite <- !app_assoc.
Qed.

(** *** The four ways a lookup ends *)

Lemma lookup_cases w r st :
  (http.Method r ≠ http.MethodPost
   ∧ lookupHandler wiki w r st
     = (http.Error "POST required" http.StatusMethodNotAllowed w, st))
  ∨ (http.Method r = http.MethodPost
     ∧ ∃ b e, io.ReadAll (http.Body r) = (b, Some e)
        ∧ lookupHandler wiki w r st
          = (http.Error "cannot read body" http.StatusBadRequest w,
             called CallReadAll (world st) st))
  ∨ (http.Method r = http.MethodPost
     ∧ ∃ b s e st', io.ReadAll (http.Body r) = (b, None)
        ∧ fetchWikipediaSummary wiki b (called CallReadAll (world st) st)
          = ((s, Some e), st')
        ∧ lookupHandler wiki w r st
          = (http.Error (fmt.Sprintf_lookup_error e)
                        http.StatusInternalServerError w, st'))
  ∨ (http.Method r = http.MethodPost
     ∧ ∃ b s st', io.ReadAll (http.Body r) = (b, None)
        ∧ fetchWikipediaSummary wiki b (called CallReadAll (world st) st)
          = ((s, None), st')
        ∧ lookupHandler wiki w r st = (fmt.Fprint s w, st')).
Proof.
  destruct (decide (http.Method r = http.MethodPost)) as [Hm|Hm].
  - right. destruct (io.ReadAll (http.Body r)) as [b [e|]] eqn:Hb.
    + left. split; [done|]. exists b, e.
      by rewrite (lookup_read_error _ _ _ _ _ _ Hm Hb).
    + right. rewrite (lookup_read_ok _ _ _ _ _ Hm Hb).
      destruct (fetchWikipediaSummary wiki b _) as [[s [e|]] st'] eqn:Hf.
      * left. split; [done|]. by exists b, s, e, st'.
      * right. split; [done|]. by exists b, s, st'.
  - left. split; [done|]. by apply lookup_not_POST.
Qed.

Lemma writes_Error msg code w :
  http.writes (http.Error msg code w)
  = (http.writes w ++ [msg +:+ String LF EmptyString])%list.
Proof. unfold http.Error, http.Write, http.WriteHeader. cbn. by repeat case_match. Qed.

Lemma writes_Write p w : http.writes (http.Write p w) = (http.writes w ++ [p])%list.
Proof. unfold http.Write, http.WriteHeader. by case_match. Qed.

(** Every handler [main] registers, on every request and from every
    state, calls [Write] exactly once: what was written before stays and
    one entry is added. *)
Theorem handlers_write_once args environ pattern h w r st :
  (pattern, h) ∈ routes (main wiki appVersion args environ) →
  ∃ p : string, http.writes (h w r st).1 = (http.writes w ++ [p])%list.
Proof.
  intros Hin. cbn in Hin.
  repeat (apply elem_of_cons in Hin as [Hin|Hin]; [simplify_eq|]).
  - eexists. unfold healthHandler, json.Encode, mret, M_ret. cbn [fst].
    by rewrite writes_Write.
  - eexists. unfold versionHandler, json.Encode, mret, M_ret. cbn [fst].
    by rewrite writes_Write.
  - destruct (lookup_cases w r st)
      as [[_ ->]|[(_ & b & e & _ & ->)|[(_ & b & s & e & st' & _ & _ & ->)
         |(_ & b & s & st' & _ & _ & ->)]]]; cbn [fst].
    1-3: eexists; by rewrite writes_Error.
    eexists. unfold fmt.Fprint. by rewrite writes_Write.
  - by apply elem_of_nil in Hin.
Qed.

(** The status of the answer to a request to [/lookup] tells how the
    lookup ended: 405 exactly for a method other than POST, 400 exactly
    for a POST whose body cannot be read, 500 exactly when the fetcher
    returns an error, 200 exactly when it returns none. *)
Theorem lookup_status_cases args environ r st :
  http.URLPath r = "/lookup" →
  let code := http.StatusCode (serve wiki appVersion muxAnswer args environ r st).1 in
  let rd := io.ReadAll (http.Body r) in
  let ft := (fetchWikipediaSummary wiki rd.1 (called CallReadAll (world st) st)).1 in
  (code = 405 ↔ http.Method r ≠ http.MethodPost)
  ∧ (code = 400 ↔ http.Method r = http.MethodPost ∧ rd.2 ≠ None)
  ∧ (code = 500 ↔ http.Method r = http.MethodPost ∧ rd.2 = None ∧ ft.2 ≠ None)
  ∧ (code = 200 ↔ http.Method r = http.MethodPost ∧ rd.2 = None ∧ ft.2 = None).
Proof.
  intros Hp. rewrite (serve_lookup _ _ _ _ _ _ _ Hp).
  destruct (lookup_cases http.newResponseWriter r st)
    as [[Hm ->]|[(Hm & b & e & Hb & ->)|[(Hm & b & s & e & st' & Hb & Hf & ->)
       |(Hm & b & s & st' & Hb & Hf & ->)]]]; cbv beta iota zeta.
  1-3: rewrite finish_Error_fresh.
  4: unfold fmt.Fprint; rewrite finish_Write_fresh.
  2-4: rewrite Hb.
  3-4: cbn [fst snd]; rewrite Hf.
  all: cbn; unfold http.StatusMethodNotAllowed, http.StatusBadRequest,
         http.StatusInternalServerError; intuition (try done; try congruence).
Qed.

(** On [/lookup] an answer other than 200 is marked as plain text, not
    to be sniffed; on a 200 the handler sets no header at all. *)
Theorem lookup_headers args environ r st :
  http.URLPath r = "/lookup" →
  let resp := (serve wiki appVersion muxAnswer args environ r st).1 in
  (http.StatusCode resp = 200 → http.ResponseHeader resp = ∅)
  ∧ (http.StatusCode resp ≠ 200 →
     http.ResponseHeader resp !! "Content-Type" = Some ["text/plain; charset=utf-8"]
     ∧ http.ResponseHeader resp !! "X-Content-Type-Options" = Some ["nosniff"]).
Proof.
  intros Hp. rewrite (serve_lookup _ _ _ _ _ _ _ Hp).
  destruct (lookup_cases http.newResponseWriter r st)
    as [[Hm ->]|[(Hm & b & e & Hb & ->)|[(Hm & b & s & e & st' & Hb & Hf & ->)
       |(Hm & b & s & st' & Hb & Hf & ->)]]]; cbv beta iota zeta.
  1-3: rewrite finish_Error_fresh; cbn; split; [done|]; intros _; by vm_compute.
  unfold fmt.Fprint. rewrite finish_Write_fresh. cbn. done.
Qed.

(** *** The process as a whole *)

Lemma serve_other args environ r st :
  http.URLPath r ≠ "/health" →
  http.URLPath r ≠ "/version" →
  http.URLPath r ≠ "/lookup" →
  serve wiki appVersion muxAnswer args environ r st
  = (muxAnswer (http.Method r) (http.URLPath r), st).
Proof.
  intros H1 H2 H3. unfold serve. cbn [main routes findHandler].
  rewrite !bool_decide_eq_false_2 by done. done.
Qed.

(** The path of a request is [/health], [/version], [/lookup] or none
    of them. *)
Lemma path_cases r :
  http.URLPath r = "/health" ∨ http.URLPath r = "/version"
  ∨ http.URLPath r = "/lookup"
  ∨ (http.URLPath r ≠ "/health" ∧ http.URLPath r ≠ "/version"
     ∧ http.URLPath r ≠ "/lookup").
Proof.
  destruct (decide (http.URLPath r = "/health")); [by left|].
  destruct (decide (http.URLPath r = "/version")); [by right; left|].
  destruct (decide (http.URLPath r = "/lookup")); [by right; right; left|].
  by right; right; right.
Qed.

(** Only a POST to [/lookup] touches anything outside the handler: any
    other request, whatever its path, method and body, leaves the state
    as it was (the body is not read, the provider is not called). *)
Theorem only_POST_lookup_calls_out args environ r st :
  http.URLPath r ≠ "/lookup" ∨ http.Method r ≠ http.MethodPost →
  (serve wiki appVersion muxAnswer args environ r st).2 = st.
Proof.
  intros Hor.
  destruct (path_cases r) as [Hp|[Hp|[Hp|(H1 & H2 & H3)]]].
  - by rewrite (serve_health _ _ _ _ _ _ _ Hp).
  - by rewrite (serve_version _ _ _ _ _ _ _ Hp).
  - destruct Hor as [Hne|Hm]; [done|].
    by rewrite (serve_lookup _ _ _ _ _ _ _ Hp), (lookup_not_POST _ _ _ _ Hm).
  - by rewrite (serve_other _ _ _ _ H1 H2 H3).
Qed.

(** One request costs at most one read of the body, one [GetPage] and
    one [GetSummary], made in this order and never repeated: the log
    grows by nothing, by the read, by the read and [GetPage] on the
    bytes read, or by these and [GetSummary]. *)
Theorem request_call_budget args environ r st :
  let st' := (serve wiki appVersion muxAnswer args environ r st).2 in
  let b := (io.ReadAll (http.Body r)).1 in
  ∃ new : list (Call Page),
    calls st' = (calls st ++ new)%list
    ∧ (new = [] ∨ new = [CallReadAll]
       ∨ new = [CallReadAll; CallGetPage b (-1) false false]
       ∨ ∃ p, new = lookupCalls b p).
Proof.
  cbv zeta.
  destruct (decide (http.URLPath r = "/lookup")) as [Hp|Hp];
    [destruct (decide (http.Method r = http.MethodPost)) as [Hm|Hm]|].
  2,3: rewrite only_POST_lookup_calls_out by auto;
       exists []; by rewrite app_nil_r; auto.
  rewrite (serve_lookup _ _ _ _ _ _ _ Hp).
  destruct (io.ReadAll (http.Body r)) as [b [e|]] eqn:Hb.
  - rewrite (lookup_read_error _ _ _ _ _ _ Hm Hb). exists [CallReadAll]. auto.
  - rewrite (lookup_read_ok _ _ _ _ _ Hm Hb).
    pose proof (fetch_calls wiki b (called CallReadAll (world st) st)) as Hc.
    destruct (GetPage wiki b (-1) false false _) as [[p perr] wd].
    destruct (fetchWikipediaSummary wiki b _) as [[s [e|]] st2]; cbn in *.
    all: rewrite Hc, <- app_assoc; eexists; split; [done|].
    all: destruct perr; cbn; eauto 6.
Qed.

(** How the connection cuts the body into reads does not matter: two
    requests with the same method and path whose bodies read to the same
    bytes (and the same error, if any) are served alike. *)
Theorem body_chunking_irrelevant args environ r1 r2 st :
  http.Method r1 = http.Method r2 →
  http.URLPath r1 = http.URLPath r2 →
  io.ReadAll (http.Body r1) = io.ReadAll (http.Body r2) →
  serve wiki appVersion muxAnswer args environ r1 st = serve wiki appVersion muxAnswer args environ r2 st.
Proof.
  intros Hm Hp Hb.
  destruct (path_cases r1) as [H1|[H1|[H1|(H1 & H2 & H3)]]].
  - by rewrite (serve_health _ _ _ _ _ _ _ H1), (serve_health _ _ _ _ _ r2 _) by congruence.
  - by rewrite (serve_version _ _ _ _ _ _ _ H1), (serve_version _ _ _ _ _ r2 _) by congruence.
  - rewrite (serve_lookup _ _ _ _ _ _ _ H1), (serve_lookup _ _ _ _ _ r2 _) by congruence.
    unfold lookupHandler, io_ReadAll, mbind, M_bind. by rewrite Hm, Hb.
  - rewrite (serve_other _ _ _ _ H1 H2 H3), (serve_other _ _ r2 _) by congruence.
    by rewrite Hm, Hp.
Qed.

End LookupFacts.

(** * More on the version endpoint: what the encoder does to the version *)

Lemma allBytes_app (P : Z → bool) (a b : string) :
  allBytes P (a +:+ b) = allBytes P a && allBytes P b.
Proof.
  induction a as [|c a IH]; [done|].
  change (P (byte_val c) && allBytes P (a +:+ b)
          = P (byte_val c) && allBytes P a && allBytes P b).
  by rewrite IH, andb_assoc.
Qed.

Lemma htmlSafeSet_ascii (b : Z) : json.htmlSafeSet b = true → (b <? 0x80) = true.
Proof. unfold json.htmlSafeSet. intros H. by repeat (apply andb_prop in H as [H ?]). Qed.

Lemma htmlSafeSet_plain (b : Z) : json.htmlSafeSet b = true → plainByte b = true.
Proof.
  unfold json.htmlSafeSet, plainByte. intros H.
  apply andb_prop in H as [H1 H2]. apply andb_prop in H1 as [H1 _].
  rewrite H1. cbn. apply negb_true_iff in H2. apply negb_true_iff.
  repeat (apply orb_false_elim in H2 as [H2 ?]). by repeat (apply orb_false_intro).
Qed.

Lemma plainByte_high (b : Z) : 0x80 ≤ b → plainByte b = true.
Proof.
  intros H. unfold plainByte.
  rewrite (proj2 (Z.leb_le _ _)) by lia.
  rewrite !(proj2 (Z.eqb_neq _ _)) by lia. done.
Qed.

(** A string of bytes the encoder copies is encoded as itself. *)
Lemma appendString_loop_safe (s : string) :
  allBytes json.htmlSafeSet s = true → json.appendString_loop s 0 = s.
Proof.
  induction s as [|c s IH]; [done|].
  cbn [allBytes json.appendString_loop]. intros [Hc Hs]%andb_prop.
  unfold utf8.RuneSelf. rewrite (htmlSafeSet_ascii _ Hc), Hc, (IH Hs). done.
Qed.

Lemma hexDigit_plain (n : Z) : allBytes plainByte (json.hexDigit n) = true.
Proof.
  unfold json.hexDigit. generalize (Z.to_nat n) as k. intros k.
  do 16 (destruct k as [|k]; [done|]). done.
Qed.

Lemma escapeByte_plain (c : ascii) : allBytes plainByte (json.escapeByte c) = true.
Proof.
  unfold json.escapeByte. cbn zeta.
  destruct ((byte_val c =? 0x5C) || (byte_val c =? 0x22)) eqn:Hq.
  - cbn [allBytes]. apply orb_prop in Hq as [H%Z.eqb_eq|H%Z.eqb_eq]; by rewrite H.
  - repeat case_match; try done.
    rewrite !allBytes_app, !hexDigit_plain. done.
Qed.

(** The bytes of a rune the decoder accepts, beyond ASCII, are all
    [0x80] or more. *)
Lemma decoded_bytes_plain (c : ascii) (rest : string) (rn : Z) (size : nat) :
  (byte_val c <? utf8.RuneSelf) = false →
  utf8.DecodeRuneInString (String c rest) = (rn, size) →
  (rn =? utf8.RuneError) && (size =? 1)%nat = false →
  allBytes plainByte (String.substring 0 size (String c rest)) = true.
Proof.
  intros Hc Hd Hok. unfold utf8.DecodeRuneInString in Hd. cbn zeta in Hd.
  rewrite Hc in Hd.
  assert (plainByte (byte_val c) = true) as Pc.
  { apply plainByte_high. unfold utf8.RuneSelf in Hc. lia. }
  destruct (utf8.first (byte_val c)) as [[[sz lo] hi]|] eqn:Hf;
    [|by simplify_eq].
  apply first_lo in Hf.
  destruct rest as [|c1 s1]; [by simplify_eq|].
  destruct ((byte_val c1 <? lo) || (hi <? byte_val c1)) eqn:H1; [by simplify_eq|].
  apply orb_false_elim in H1 as [H1 _].
  assert (plainByte (byte_val c1) = true) as P1 by (apply plainByte_high; lia).
  destruct (sz <=? 2)%nat.
  { simplify_eq. cbn. by rewrite substring_0_0, Pc, P1. }
  destruct s1 as [|c2 s2]; [by simplify_eq|].
  destruct (utf8.cont (byte_val c2)) eqn:H2; cbn [negb] in Hd; [|by simplify_eq].
  assert (plainByte (byte_val c2) = true) as P2
    by (apply plainByte_high; by apply cont_high).
  destruct (sz <=? 3)%nat.
  { simplify_eq. cbn. by rewrite substring_0_0, Pc, P1, P2. }
  destruct s2 as [|c3 s3]; [by simplify_eq|].
  destruct (utf8.cont (byte_val c3)) eqn:H3; cbn [negb] in Hd; [|by simplify_eq].
  assert (plainByte (byte_val c3) = true) as P3
    by (apply plainByte_high; by apply cont_high).
  simplify_eq. cbn. by rewrite substring_0_0, Pc, P1, P2, P3.
Qed.

(** Whatever the string, its encoding has no control character and none
    of [&], [<], [>]. *)
Lemma appendString_loop_plain (src : string) (skip : nat) :
  allBytes plainByte (json.appendString_loop src skip) = true.
Proof.
  revert skip. induction src as [|c rest IH]; intros skip; [done|].
  cbn [json.appendString_loop]. destruct skip as [|k]; [|apply IH].
  cbn zeta.
  destruct (byte_val c <? utf8.RuneSelf) eqn:Hc.
  - rewrite allBytes_app, IH, andb_true_r.
    destruct (json.htmlSafeSet (byte_val c)) eqn:Hs.
    + cbn. by rewrite (htmlSafeSet_plain _ Hs).
    + apply escapeByte_plain.
  - destruct (utf8.DecodeRuneInString (String c rest)) as [rn size] eqn:Hd.
    destruct ((rn =? utf8.RuneError) && (size =? 1)%nat) eqn:Hok.
    + by rewrite allBytes_app, IH.
    + destruct ((rn =? 0x2028) || (rn =? 0x2029)).
      * by rewrite !allBytes_app, hexDigit_plain, IH.
      * rewrite allBytes_app, IH, andb_true_r.
        by apply (decoded_bytes_plain c rest rn size).
Qed.

Section VersionFacts.

Context {World Page E : Type} `{!GoError E}.
Variable wiki : Wiki World Page E.
Variable appVersion : string.
Variable muxAnswer : string → string → http.Response.

Implicit Types (st : State World Page) (r : http.Request E).

(** A version made of bytes the encoder copies (printable ASCII other
    than the double quote, the backslash, [&], [<] and [>], as in
    [dev] or what [git describe] prints) is shown as it is: the body of
    [/version] is the object with that very string, and a newline; the
    state is left as it was. *)
Theorem version_verbatim args environ r st :
  http.URLPath r = "/version" →
  allBytes json.htmlSafeSet appVersion = true →
  serve wiki appVersion muxAnswer args environ r st
  = ({| http.StatusCode := 200;
        http.ResponseHeader := <["Content-Type" := ["application/json"]]> ∅;
        http.ResponseBody := versionJSON appVersion +:+ String LF EmptyString |},
     st).
Proof.
  intros Hp Hsafe. rewrite (version_body _ _ _ _ _ _ _ Hp).
  by rewrite (appendString_loop_safe _ Hsafe).
Qed.

(** Whatever the version string is, the body of [/version] is one line:
    a text without control characters (so without a line feed) and
    without [&], [<], [>], followed by the newline that ends it. *)
Theorem version_body_one_line args environ r st :
  http.URLPath r = "/version" →
  ∃ t : string,
    http.ResponseBody (serve wiki appVersion muxAnswer args environ r st).1
    = t +:+ String LF EmptyString
    ∧ allBytes plainByte t = true.
Proof.
  intros Hp. rewrite (version_body _ _ _ _ _ _ _ Hp). cbn [fst http.ResponseBody].
  eexists. split; [done|].
  unfold versionJSON, quoted.
  rewrite !allBytes_app. cbn [allBytes].
  rewrite ?allBytes_app, appendString_loop_plain. by vm_compute.
Qed.

End VersionFacts.

(** ** These properties on the fake provider *)

(** A topic the provider has no page for. *)
Lemma lookup_page_error_witness :
  Fixture.run "POST" "/lookup" "Atlantis (band)"
  = ({| http.StatusCode := 500; http.ResponseHeader := errorHeader;
        http.ResponseBody :=
          "lookup error: " +:+ Error (Fixture.PageNotFound "Atlantis (band)")
            +:+ String LF EmptyString |},
     {| world := 1%nat;
        calls := [] ++ [CallReadAll; CallGetPage "Atlantis (band)" (-1) false false] |}).
Proof.
  apply (lookup_page_error Fixture.wiki defaultVersion Fixture.muxAnswer [] []
           (Fixture.request "POST" "/lookup" "Atlantis (band)") Fixture.start
           "Atlantis (band)" Fixture.GeneralRelativity
           (Fixture.PageNotFound "Atlantis (band)") 1%nat); reflexivity.
Defined.

(** A topic whose page has no summary: the text the provider returned
    beside the error is dropped. *)
Lemma lookup_summary_error_witness :
  Fixture.run "POST" "/lookup" "Mercury"
  = ({| http.StatusCode := 500; http.ResponseHeader := errorHeader;
        http.ResponseBody :=
          "lookup error: " +:+ Error Fixture.Disambiguation +:+ String LF EmptyString |},
     {| world := 2%nat; calls := [] ++ lookupCalls "Mercury" Fixture.Mercury |}).
Proof.
  apply (lookup_summary_error Fixture.wiki defaultVersion Fixture.muxAnswer [] []
           (Fixture.request "POST" "/lookup" "Mercury") Fixture.start
           "Mercury" Fixture.Mercury 1%nat "Mercury may refer to:"
           Fixture.Disambiguation 2%nat); reflexivity.
Defined.

Lemma lookup_provider_success_witness :
  Fixture.run "POST" "/lookup" "General relativity"
  = ({| http.StatusCode := 200; http.ResponseHeader := ∅;
        http.ResponseBody := Fixture.summaryGR |},
     {| world := 2%nat;
        calls := [] ++ lookupCalls "General relativity" Fixture.GeneralRelativity |}).
Proof.
  apply (lookup_provider_success Fixture.wiki defaultVersion Fixture.muxAnswer [] []
           (Fixture.request "POST" "/lookup" "General relativity") Fixture.start
           "General relativity" Fixture.GeneralRelativity 1%nat
           Fixture.summaryGR 2%nat); reflexivity.
Defined.

(** The lookup handler on a writer already written to. *)
Lemma handlers_write_once_witness :
  ∃ p : string,
    http.writes (lookupHandler Fixture.wiki Cases.used
                   (Fixture.request "POST" "/lookup" "Mercury") Fixture.start).1
    = (http.writes Cases.used ++ [p])%list.
Proof.
  apply (handlers_write_once Fixture.wiki defaultVersion [] [] "/lookup"
           (lookupHandler Fixture.wiki) Cases.used
           (Fixture.request "POST" "/lookup" "Mercury") Fixture.start).
  cbn. do 2 apply list_elem_of_further. apply list_elem_of_here.
Defined.

(** The status on a body that breaks off. *)
Lemma lookup_status_cases_witness :
  let r := Fixture.truncated in
  let code := http.StatusCode
                (serve Fixture.wiki defaultVersion Fixture.muxAnswer [] [] r Fixture.start).1 in
  let rd := io.ReadAll (http.Body r) in
  let ft := (fetchWikipediaSummary Fixture.wiki rd.1
               (called CallReadAll (world Fixture.start) Fixture.start)).1 in
  (code = 405 ↔ http.Method r ≠ http.MethodPost)
  ∧ (code = 400 ↔ http.Method r = http.MethodPost ∧ rd.2 ≠ None)
  ∧ (code = 500 ↔ http.Method r = http.MethodPost ∧ rd.2 = None ∧ ft.2 ≠ None)
  ∧ (code = 200 ↔ http.Method r = http.MethodPost ∧ rd.2 = None ∧ ft.2 = None).
Proof.
  apply (lookup_status_cases Fixture.wiki defaultVersion Fixture.muxAnswer [] []
           Fixture.truncated Fixture.start).
  reflexivity.
Defined.

Lemma lookup_headers_witness :
  let resp := (Fixture.run "POST" "/lookup" "Mercury").1 in
  (http.StatusCode resp = 200 → http.ResponseHeader resp = ∅)
  ∧ (http.StatusCode resp ≠ 200 →
     http.ResponseHeader resp !! "Content-Type" = Some ["text/plain; charset=utf-8"]
     ∧ http.ResponseHeader resp !! "X-Content-Type-Options" = Some ["nosniff"]).
Proof.
  apply (lookup_headers Fixture.wiki defaultVersion Fixture.muxAnswer [] []
           (Fixture.request "POST" "/lookup" "Mercury") Fixture.start).
  reflexivity.
Defined.

(** A POST to a path that is not [/lookup] itself. *)
Lemma only_POST_lookup_calls_out_witness :
  (Fixture.run "POST" "/lookup/" "General relativity").2 = Fixture.start.
Proof.
  apply (only_POST_lookup_calls_out Fixture.wiki defaultVersion Fixture.muxAnswer [] []
           (Fixture.request "POST" "/lookup/" "General relativity") Fixture.start).
  left. discriminate.
Defined.

(** The topic in two reads and in one. *)
Lemma body_chunking_irrelevant_witness :
  serve Fixture.wiki defaultVersion Fixture.muxAnswer [] [] Cases.chunked Fixture.start
  = Fixture.run "POST" "/lookup" "General relativity".
Proof.
  apply (body_chunking_irrelevant Fixture.wiki defaultVersion Fixture.muxAnswer [] []
           Cases.chunked (Fixture.request "POST" "/lookup" "General relativity")
           Fixture.start); reflexivity.
Defined.

(** The version the Makefile falls back to. *)
Lemma version_verbatim_witness :
  serve Fixture.wiki "v0.1.0-dev" Fixture.muxAnswer [] []
    (Fixture.request "GET" "/version" EmptyString) Fixture.start
  = ({| http.StatusCode := 200;
        http.ResponseHeader := <["Content-Type" := ["application/json"]]> ∅;
        http.ResponseBody := versionJSON "v0.1.0-dev" +:+ String LF EmptyString |},
     Fixture.start).
Proof.
  apply (version_verbatim Fixture.wiki "v0.1.0-dev" Fixture.muxAnswer [] []
           (Fixture.request "GET" "/version" EmptyString) Fixture.start);
    reflexivity.
Defined.

(** A version with a line feed and markup in it. *)
Lemma version_body_one_line_witness :
  ∃ t : string,
    http.ResponseBody
      (serve Fixture.wiki ("1.0" +:+ String LF "<b>") Fixture.muxAnswer [] []
         (Fixture.request "GET" "/version" EmptyString) Fixture.start).1
    = t +:+ String LF EmptyString
    ∧ allBytes plainByte t = true.
Proof.
  apply (version_body_one_line Fixture.wiki ("1.0" +:+ String LF "<b>") Fixture.muxAnswer [] []
           (Fixture.request "GET" "/version" EmptyString) Fixture.start).
  reflexivity.
Defined.
